(** * A slider's gesture-to-value engine (src/index.tsx), embedded in Rocq

    The component keeps three measured sizes, an animated value with one
    listener, and the anchor of the running drag.  The handlers of the
    class are pure functions on a record [Slider] here; what they do to
    the outside (callbacks of the props, [setState], the start of an
    animation) is appended to a log kept in the record.

    Numbers.  A JavaScript [number] is an IEEE 754 binary64 value.  It is
    modelled by [number]: a finite value, given by the rational it stands
    for, [+Infinity], [-Infinity] or [NaN].  Every addition, subtraction,
    multiplication and division rounds its exact result to the nearest
    binary64 value, a tie going to the even significand, with gradual
    underflow and with overflow to an infinity ([round64]).  The special
    values follow IEEE 754 as JavaScript does: [x / 0] is an infinity of
    the sign of [x]; [0 / 0], [Infinity - Infinity] and [0 * Infinity] are
    [NaN]; [NaN] propagates and compares false with everything.  There is
    one zero, taken as [+0]: the zero divisors of the code are differences
    [a - a], which are [+0]. *)

From Stdlib Require Import QArith Qround Qabs Qpower ZArith List Bool Lia Lqa String.
Import ListNotations.

Local Open Scope Q_scope.

(** ** Numbers *)

Module Num.

Inductive number : Type :=
| Fin (q : Q)
| PInf
| NInf
| NaN.

Definition isNaN (a : number) : bool :=
  match a with NaN => true | _ => false end.

Definition isInf (a : number) : bool :=
  match a with PInf | NInf => true | _ => false end.

(** [-a] *)
Definition neg (a : number) : number :=
  match a with
  | Fin x => Fin (- x)
  | PInf => NInf
  | NInf => PInf
  | NaN => NaN
  end.

(** [2^e] *)
Definition pow2 (e : Z) : Q := (2 ^ e)%Q.

(** The binary exponent of a positive rational: the [e] with
    [2^e <= a < 2^(e+1)]. *)
Definition exp_of (a : Q) : Z :=
  let e0 := (Z.log2 (Qnum a) - Z.log2 (Zpos (Qden a)))%Z in
  if Qle_bool (pow2 e0) a then e0 else (e0 - 1)%Z.

(** The nearest integer, a tie going to the even one. *)
Definition rne (x : Q) : Z :=
  let f := Qfloor x in
  match Qcompare (x - inject_Z f) (1 # 2) with
  | Lt => f
  | Gt => (f + 1)%Z
  | Eq => if Z.even f then f else (f + 1)%Z
  end.

(** Rounding to binary64: 53 significant bits, exponents from [-1022]
    (below, the spacing stays [2^-1074]), and an infinity when the rounded
    value reaches [2^1024]. *)
Definition round64 (q : Q) : number :=
  let e := Z.max (exp_of (Qabs q)) (-1022) in
  let u := pow2 (e - 52) in
  let r := Qred (inject_Z (rne (q / u)) * u) in
  if Qle_bool (pow2 1024) (Qabs r)
  then (if Qle_bool 0 q then PInf else NInf)
  else Fin r.

(** The number a decimal literal of the program text stands for. *)
Definition js (q : Q) : number := round64 q.

(** [a + b] *)
Definition add (a b : number) : number :=
  match a, b with
  | NaN, _ | _, NaN => NaN
  | Fin x, Fin y => round64 (x + y)
  | PInf, NInf | NInf, PInf => NaN
  | PInf, _ | _, PInf => PInf
  | NInf, _ | _, NInf => NInf
  end.

(** [a - b] *)
Definition sub (a b : number) : number := add a (neg b).

(** The infinity of the sign of [x], [NaN] at zero: [Infinity * x]. *)
Definition inf_times (x : Q) : number :=
  match x ?= 0 with
  | Eq => NaN
  | Gt => PInf
  | Lt => NInf
  end.

(** [a * b] *)
Definition mul (a b : number) : number :=
  match a, b with
  | NaN, _ | _, NaN => NaN
  | Fin x, Fin y => round64 (x * y)
  | PInf, Fin y | Fin y, PInf => inf_times y
  | NInf, Fin y | Fin y, NInf => neg (inf_times y)
  | PInf, PInf | NInf, NInf => PInf
  | PInf, NInf | NInf, PInf => NInf
  end.

(** [a / b]; a finite value over zero is an infinity, zero over zero is
    [NaN]. *)
Definition div (a b : number) : number :=
  match a, b with
  | NaN, _ | _, NaN => NaN
  | Fin x, Fin y => if Qeq_bool y 0 then inf_times x else round64 (x / y)
  | Fin _, (PInf | NInf) => Fin 0
  | PInf, Fin y => if Qle_bool 0 y then PInf else NInf
  | NInf, Fin y => if Qle_bool 0 y then NInf else PInf
  | (PInf | NInf), (PInf | NInf) => NaN
  end.

(** [a <= b]; false when one side is [NaN]. *)
Definition leb (a b : number) : bool :=
  match a, b with
  | NaN, _ | _, NaN => false
  | NInf, _ | _, PInf => true
  | Fin x, Fin y => Qle_bool x y
  | _, _ => false
  end.

(** [a >= b] *)
Definition geb (a b : number) : bool := leb b a.

(** [a === b] on numbers; [NaN] equals nothing. *)
Definition strict_eq (a b : number) : bool :=
  match a, b with
  | Fin x, Fin y => Qeq_bool x y
  | PInf, PInf | NInf, NInf => true
  | _, _ => false
  end.

(** A number used as a condition: false for zero and [NaN]. *)
Definition truthy (a : number) : bool :=
  match a with
  | Fin x => negb (Qeq_bool x 0)
  | PInf | NInf => true
  | NaN => false
  end.

(** [a || b] on numbers *)
Definition or_else (a b : number) : number := if truthy a then a else b.

Definition qmax (x y : Q) : Q := if Qle_bool x y then y else x.

Definition qmin (x y : Q) : Q := if Qle_bool x y then x else y.

(** [Math.max(a, b)] *)
Definition Math_max (a b : number) : number :=
  match a, b with
  | NaN, _ | _, NaN => NaN
  | PInf, _ | _, PInf => PInf
  | NInf, c | c, NInf => c
  | Fin x, Fin y => Fin (qmax x y)
  end.

(** [Math.min(a, b)] *)
Definition Math_min (a b : number) : number :=
  match a, b with
  | NaN, _ | _, NaN => NaN
  | NInf, _ | _, NInf => NInf
  | PInf, c | c, PInf => c
  | Fin x, Fin y => Fin (qmin x y)
  end.

(** [Math.round(a)]: the nearest integer, a tie going up, that is
    [floor(a + 1/2)] taken exactly; the result of rounding a binary64
    value this way is a binary64 value. *)
Definition Math_round (a : number) : number :=
  match a with
  | Fin x => Fin (inject_Z (Qfloor (x + (1 # 2))))
  | _ => a
  end.

(** Numeric equality of two results: the same special value, or finite
    values equal as rationals. *)
Definition eqv (a b : number) : Prop :=
  match a, b with
  | Fin x, Fin y => x == y
  | PInf, PInf | NInf, NInf | NaN, NaN => True
  | _, _ => False
  end.

End Num.
Import Num.

Declare Scope js_scope.
Delimit Scope js_scope with js.
Bind Scope js_scope with number.
Infix "+" := add : js_scope.
Infix "-" := sub : js_scope.
Infix "*" := mul : js_scope.
Infix "/" := div : js_scope.
Infix ">=?" := geb (at level 70) : js_scope.
Infix "<=?" := leb (at level 70) : js_scope.
Infix "===" := strict_eq (at level 70) : js_scope.

Coercion Fin : Q >-> number.

Local Open Scope js_scope.

(** ** Geometry *)

Record Rect : Type := mkRect {
  rect_x : number;
  rect_y : number;
  rect_width : number;
  rect_height : number
}.

(** [Rect.containsPoint]: the four edges belong to the rectangle. *)
Definition containsPoint (this : Rect) (x y : number) : bool :=
  (x >=? rect_x this) &&
  (y >=? rect_y this) &&
  (x <=? rect_x this + rect_width this) &&
  (y <=? rect_y this + rect_height this).

Record Size : Type := mkSize {
  width : number;
  height : number
}.

Inductive SizeEnum : Type :=
| E_containerSize
| E_trackSize
| E_thumbSize.

Inductive EventEnum : Type :=
| onSlidingStart
| onValueChange
| onSlidingComplete.

(** ** Props, state and the instance *)

(** The animation settings: the two animation kinds of the library and
    the configuration objects it takes. *)
Inductive AnimationType : Type :=
| spring
| timing.

(** What a field of an animation configuration holds. *)
Inductive ConfigValue : Type :=
| VNumber (n : number)
| VBool (b : bool)
| VEasing_inOut_ease
| VFunction (id : nat).

(** A configuration object, read by key. *)
Definition Config : Type := string -> option ConfigValue.

Definition empty_config : Config := fun _ => None.

Definition set_key (o : Config) (k : string) (v : ConfigValue) : Config :=
  fun k' => if String.eqb k' k then Some v else o k'.

(** [Object.assign(target, source)]: the keys of the source win; a source
    that is [undefined] is skipped. *)
Definition assign_one (target : Config) (source : option Config) : Config :=
  match source with
  | Some o => fun k => match o k with Some v => Some v | None => target k end
  | None => target
  end.

Definition Object_assign (target : Config) (sources : list (option Config))
  : Config :=
  fold_left assign_one sources target.

Definition DEFAULT_ANIMATION_CONFIGS (animationType : AnimationType)
  : Config :=
  match animationType with
  | spring =>
      set_key (set_key empty_config "friction" (VNumber 7))
        "tension" (VNumber 100)
  | timing =>
      set_key
        (set_key (set_key empty_config "duration" (VNumber 150))
           "easing" VEasing_inOut_ease)
        "delay" (VNumber 0)
  end.

(** The configuration [_setCurrentValueAnimated] passes to
    [Animated[animationType]]; [animationType] and [animationConfig] are
    the props of these names. *)
Definition animationConfig_of (animationType : AnimationType)
  (animationConfig : option Config) (v : number) : Config :=
  Object_assign empty_config
    [Some (DEFAULT_ANIMATION_CONFIGS animationType);
     animationConfig;
     Some (set_key empty_config "toValue" (VNumber v))].

(** The props the engine reads.  A callback is kept as its presence; its
    calls are recorded in the log of the instance.  [animationConfig] is
    optional. *)
Record SliderProps : Type := mkSliderProps {
  value : number;
  disabled : bool;
  minimumValue : number;
  maximumValue : number;
  step : number;
  thumbTouchSize : Size;
  has_onValueChange : bool;
  has_onSlidingStart : bool;
  has_onSlidingComplete : bool;
  animateTransitions : bool;
  animationType : AnimationType;
  animationConfig : option Config
}.

(** Props with the animation settings of [defaultProps]:
    [animationType: 'timing'] and no [animationConfig]. *)
Definition mkProps (value : number) (disabled : bool)
  (minimumValue maximumValue step : number) (thumbTouchSize : Size)
  (has_onValueChange has_onSlidingStart has_onSlidingComplete : bool)
  (animateTransitions : bool) : SliderProps :=
  mkSliderProps value disabled minimumValue maximumValue step thumbTouchSize
    has_onValueChange has_onSlidingStart has_onSlidingComplete
    animateTransitions timing None.

(** [this.props[event]] as a condition *)
Definition has_callback (p : SliderProps) (event : EventEnum) : bool :=
  match event with
  | onSlidingStart => has_onSlidingStart p
  | onValueChange => has_onValueChange p
  | onSlidingComplete => has_onSlidingComplete p
  end.

(** [this.state]; [state_value] is what the [Animated.Value] holds. *)
Record SliderState : Type := mkState {
  containerSize : Size;
  trackSize : Size;
  thumbSize : Size;
  allMeasured : bool;
  state_value : number
}.

(** What an operation does to the outside. *)
Inductive Effect : Type :=
| Callback (event : EventEnum) (v : number)
| SetState (container track thumb : Size)
| StartAnimation (animationType : AnimationType) (config : Config).

(** The instance: props, state, the private fields, the layout direction
    ([I18nManager.isRTL]), and two ghost fields: the log of effects, oldest
    first, and the number of calls of the listener registered by the
    constructor. *)
Record Slider : Type := mkSlider {
  props : SliderProps;
  state : SliderState;
  _previousLeft : number;
  _containerSize : option Size;
  _trackSize : option Size;
  _thumbSize : option Size;
  currentValue : number;
  isRTL : bool;
  effects : list Effect;
  listenerCalls : nat
}.

Definition with_state (s : Slider) (st : SliderState) : Slider :=
  mkSlider (props s) st (_previousLeft s) (_containerSize s) (_trackSize s)
    (_thumbSize s) (currentValue s) (isRTL s) (effects s) (listenerCalls s).

Definition with_previousLeft (s : Slider) (l : number) : Slider :=
  mkSlider (props s) (state s) l (_containerSize s) (_trackSize s)
    (_thumbSize s) (currentValue s) (isRTL s) (effects s) (listenerCalls s).

Definition with_effect (s : Slider) (e : Effect) : Slider :=
  mkSlider (props s) (state s) (_previousLeft s) (_containerSize s)
    (_trackSize s) (_thumbSize s) (currentValue s) (isRTL s)
    (effects s ++ [e]) (listenerCalls s).

Definition with_props (s : Slider) (p : SliderProps) : Slider :=
  mkSlider p (state s) (_previousLeft s) (_containerSize s) (_trackSize s)
    (_thumbSize s) (currentValue s) (isRTL s) (effects s) (listenerCalls s).

(** [this[storeName]] *)
Definition get_store (s : Slider) (storeName : SizeEnum) : option Size :=
  match storeName with
  | E_containerSize => _containerSize s
  | E_trackSize => _trackSize s
  | E_thumbSize => _thumbSize s
  end.

(** [this[storeName] = size] *)
Definition set_store (s : Slider) (storeName : SizeEnum) (size : Size)
  : Slider :=
  match storeName with
  | E_containerSize =>
      mkSlider (props s) (state s) (_previousLeft s) (Some size)
        (_trackSize s) (_thumbSize s) (currentValue s) (isRTL s) (effects s)
        (listenerCalls s)
  | E_trackSize =>
      mkSlider (props s) (state s) (_previousLeft s) (_containerSize s)
        (Some size) (_thumbSize s) (currentValue s) (isRTL s) (effects s)
        (listenerCalls s)
  | E_thumbSize =>
      mkSlider (props s) (state s) (_previousLeft s) (_containerSize s)
        (_trackSize s) (Some size) (currentValue s) (isRTL s) (effects s)
        (listenerCalls s)
  end.

(** The listener of the constructor: [this.currentValue = value]. *)
Definition listener (s : Slider) (v : number) : Slider :=
  mkSlider (props s) (state s) (_previousLeft s) (_containerSize s)
    (_trackSize s) (_thumbSize s) v (isRTL s) (effects s)
    (S (listenerCalls s)).

(** [Animated.Value.setValue]: stores the value and calls the listeners at
    once (React Native's library, outside this repository). *)
Definition Animated_setValue (s : Slider) (v : number) : Slider :=
  listener
    (with_state s
       (mkState (containerSize (state s)) (trackSize (state s))
          (thumbSize (state s)) (allMeasured (state s)) v))
    v.

(** [constructor(props)]; [rtl] is [I18nManager.isRTL]. *)
Definition constructor (p : SliderProps) (rtl : bool) : Slider :=
  mkSlider p
    (mkState (mkSize 0 0) (mkSize 0 0) (mkSize 0 0) false
       (or_else (value p) 0))
    0 None None None 0 rtl [] 0%nat.

Definition defaultProps : SliderProps :=
  mkProps 0 false 0 1 0 (mkSize 40 40) false false false false.

(** ** Value mapper *)

Record PanResponderGestureState : Type := mkGesture {
  dx : number
}.

Record GestureResponderEvent : Type := mkEvent {
  locationX : number;
  locationY : number
}.

Definition _getRatio (s : Slider) (v : number) : number :=
  (v - minimumValue (props s)) /
  (maximumValue (props s) - minimumValue (props s)).

Definition _getThumbLeft (s : Slider) (v : number) : number :=
  let nonRtlRatio := _getRatio s v in
  let ratio := if isRTL s then 1 - nonRtlRatio else nonRtlRatio in
  ratio * (width (containerSize (state s)) - width (thumbSize (state s))).

Definition _getValue (s : Slider) (gestureState : PanResponderGestureState)
  : number :=
  let containerSize := containerSize (state s) in
  let thumbSize := thumbSize (state s) in
  let minimumValue := minimumValue (props s) in
  let maximumValue := maximumValue (props s) in
  let step := step (props s) in
  let length := width containerSize - width thumbSize in
  let thumbLeft := _previousLeft s + dx gestureState in
  let nonRtlRatio := thumbLeft / length in
  let ratio := if isRTL s then 1 - nonRtlRatio else nonRtlRatio in
  if truthy step then
    Math_max minimumValue
      (Math_min maximumValue
         (minimumValue +
          Math_round (ratio * (maximumValue - minimumValue) / step) * step))
  else
    Math_max minimumValue
      (Math_min maximumValue
         (ratio * (maximumValue - minimumValue) + minimumValue)).

Definition _getCurrentValue (s : Slider) : number := currentValue s.

Definition _setCurrentValue (s : Slider) (v : number) : Slider :=
  Animated_setValue s v.

(** [_setCurrentValueAnimated]: merges the defaults of the animation type,
    the [animationConfig] prop and the target, and starts the animation
    of the library with the result.  The start is logged with what it is
    given.  What the library then passes to the listener, before
    [start()] returns or on later frames, reaches the instance as
    [OpFrame] operations. *)
Definition _setCurrentValueAnimated (s : Slider) (v : number) : Slider :=
  let animationType := animationType (props s) in
  let animationConfig :=
    animationConfig_of animationType (animationConfig (props s)) v in
  with_effect s (StartAnimation animationType animationConfig).

Definition _fireChangeEvent (s : Slider) (event : EventEnum) : Slider :=
  if has_callback (props s) event
  then with_effect s (Callback event (_getCurrentValue s))
  else s.

(** ** Touch target *)

Definition _getTouchOverflowSize (s : Slider) : Size :=
  if allMeasured (state s) then
    mkSize
      (Math_max 0
         (width (thumbTouchSize (props s)) - width (thumbSize (state s))))
      (Math_max 0
         (height (thumbTouchSize (props s)) -
          height (containerSize (state s))))
  else mkSize 0 0.

Definition _getThumbTouchRect (s : Slider) : Rect :=
  let touchOverflowSize := _getTouchOverflowSize s in
  mkRect
    (width touchOverflowSize / 2 +
     _getThumbLeft s (_getCurrentValue s) +
     (width (thumbSize (state s)) - width (thumbTouchSize (props s))) / 2)
    (height touchOverflowSize / 2 +
     (height (containerSize (state s)) - height (thumbTouchSize (props s)))
     / 2)
    (width (thumbTouchSize (props s)))
    (height (thumbTouchSize (props s))).

Definition _thumbHitTest (s : Slider) (e : GestureResponderEvent) : bool :=
  let thumbTouchRect := _getThumbTouchRect s in
  containsPoint thumbTouchRect (locationX e) (locationY e).

(** ** Gesture handlers *)

Definition _handleStartShouldSetPanResponder (s : Slider)
  (e : GestureResponderEvent) : bool :=
  _thumbHitTest s e.

Definition _handleMoveShouldSetPanResponder (s : Slider) : bool := false.

Definition _handlePanResponderGrant (s : Slider) : Slider :=
  let s1 := with_previousLeft s (_getThumbLeft s (_getCurrentValue s)) in
  _fireChangeEvent s1 onSlidingStart.

Definition _handlePanResponderMove (s : Slider)
  (gestureState : PanResponderGestureState) : Slider :=
  if disabled (props s) then s
  else
    let s1 := _setCurrentValue s (_getValue s gestureState) in
    _fireChangeEvent s1 onValueChange.

Definition _handlePanResponderRequestEnd (s : Slider) : bool := false.

Definition _handlePanResponderEnd (s : Slider)
  (gestureState : PanResponderGestureState) : Slider :=
  if disabled (props s) then s
  else
    let s1 := _setCurrentValue s (_getValue s gestureState) in
    _fireChangeEvent s1 onSlidingComplete.

(** ** Measurement *)

(** [setState] of [_handleMeasure], taken as applied at once. *)
Definition setState_measured (s : Slider) (c t th : Size) : Slider :=
  with_effect
    (with_state s (mkState c t th true (state_value (state s))))
    (SetState c t th).

Definition _handleMeasure (s : Slider) (storeName : SizeEnum)
  (w h : number) : Slider :=
  let size := mkSize w h in
  let unchanged :=
    match get_store s storeName with
    | Some currentSize => (w === width currentSize) && (h === height currentSize)
    | None => false
    end in
  if unchanged then s
  else
    let s1 := set_store s storeName size in
    match _containerSize s1, _trackSize s1, _thumbSize s1 with
    | Some c, Some t, Some th => setState_measured s1 c t th
    | _, _, _ => s1
    end.

Definition _measureContainer (s : Slider) (w h : number) : Slider :=
  _handleMeasure s E_containerSize w h.

Definition _measureTrack (s : Slider) (w h : number) : Slider :=
  _handleMeasure s E_trackSize w h.

Definition _measureThumb (s : Slider) (w h : number) : Slider :=
  _handleMeasure s E_thumbSize w h.

(** ** Props updates *)

(** [componentWillReceiveProps(nextProps)]; React installs [nextProps] as
    [this.props] after the call. *)
Definition componentWillReceiveProps (s : Slider) (nextProps : SliderProps)
  : Slider :=
  let newValue := or_else (value nextProps) 0 in
  if negb (value (props s) === newValue) then
    if animateTransitions (props s)
    then _setCurrentValueAnimated s newValue
    else _setCurrentValue s newValue
  else s.

(** ** Runs of the component *)

(** What the host can do to a mounted instance: deliver a layout of one of
    the three views, call a handler of the pan responder, deliver a frame of
    a running animation to the listener, or pass new props. *)
Inductive Op : Type :=
| OpMeasure (storeName : SizeEnum) (w h : number)
| OpGrant
| OpMove (gestureState : PanResponderGestureState)
| OpEnd (gestureState : PanResponderGestureState)
| OpFrame (v : number)
| OpReceiveProps (nextProps : SliderProps).

Definition exec (s : Slider) (o : Op) : Slider :=
  match o with
  | OpMeasure storeName w h => _handleMeasure s storeName w h
  | OpGrant => _handlePanResponderGrant s
  | OpMove g => _handlePanResponderMove s g
  | OpEnd g => _handlePanResponderEnd s g
  | OpFrame v => Animated_setValue s v
  | OpReceiveProps p => with_props (componentWillReceiveProps s p) p
  end.

Definition run (s : Slider) (ops : list Op) : Slider :=
  fold_left exec ops s.

(** A layout of the region is among the operations. *)
Definition measures (storeName : SizeEnum) (o : Op) : bool :=
  match o, storeName with
  | OpMeasure E_containerSize _ _, E_containerSize
  | OpMeasure E_trackSize _ _, E_trackSize
  | OpMeasure E_thumbSize _ _, E_thumbSize => true
  | _, _ => false
  end.

(** ** The gesture controller *)

(** Modelled from the spec: the responder dispatch of React Native's
    [PanResponder], which is outside this repository.  Section 4.3 gives
    two states, Idle and Dragging; a press is offered to
    [onStartShouldSetPanResponder] and a move of a touch that owns nothing
    to [onMoveShouldSetPanResponder]; a true answer grants the gesture, the
    moves of a granted gesture go to the move handler, and release and
    termination both go to the end handler. *)
Record Controller : Type := mkController {
  slider : Slider;
  dragging : bool
}.

Inductive Touch : Type :=
| TouchStart (e : GestureResponderEvent)
| TouchMove (e : GestureResponderEvent) (g : PanResponderGestureState)
| TouchRelease (g : PanResponderGestureState)
| TouchTerminate (g : PanResponderGestureState).

Definition grant (c : Controller) : Controller :=
  mkController (_handlePanResponderGrant (slider c)) true.

Definition dispatch (c : Controller) (t : Touch) : Controller :=
  match t with
  | TouchStart e =>
      if dragging c then c
      else if _handleStartShouldSetPanResponder (slider c) e then grant c
      else c
  | TouchMove e g =>
      if dragging c
      then mkController (_handlePanResponderMove (slider c) g) true
      else if _handleMoveShouldSetPanResponder (slider c) then grant c
      else c
  | TouchRelease g | TouchTerminate g =>
      if dragging c
      then mkController (_handlePanResponderEnd (slider c) g) false
      else c
  end.

Definition dispatch_all (c : Controller) (ts : list Touch) : Controller :=
  fold_left dispatch ts c.

(** The press lands outside the touch rect of the slider. *)
Definition misses (s : Slider) (t : Touch) : bool :=
  match t with
  | TouchStart e =>
      negb (containsPoint (_getThumbTouchRect s) (locationX e) (locationY e))
  | _ => true
  end.

(** [onSlidingStart] was called. *)
Definition is_sliding_start (e : Effect) : bool :=
  match e with
  | Callback onSlidingStart _ => true
  | _ => false
  end.

(** ** Predicates used by the statements *)

(** As long as the listener was never called, [currentValue] is the zero
    the constructor wrote. *)
Definition unnotified_reads_zero (s : Slider) : Prop :=
  listenerCalls s = 0%nat -> currentValue s = Fin 0.

Definition is_some {A : Type} (o : option A) : bool :=
  match o with Some _ => true | None => false end.

(** The three instance fields hold a size. *)
Definition all_stored (s : Slider) : bool :=
  is_some (_containerSize s) && is_some (_trackSize s) &&
  is_some (_thumbSize s).

(** Each of the three regions had a layout among the operations. *)
Definition each_region_measured (ops : list Op) : bool :=
  existsb (measures E_containerSize) ops &&
  existsb (measures E_trackSize) ops &&
  existsb (measures E_thumbSize) ops.

(** [rawRatio] of [_getValue]: the offset over the track length. *)
Definition raw_ratio (s : Slider) (g : PanResponderGestureState) : number :=
  (_previousLeft s + dx g) /
  (width (containerSize (state s)) - width (thumbSize (state s))).

(** What [_getValue] does with the ratio once it has it. *)
Definition value_of_ratio (p : SliderProps) (ratio : number) : number :=
  if truthy (step p) then
    Math_max (minimumValue p)
      (Math_min (maximumValue p)
         (minimumValue p +
          Math_round (ratio * (maximumValue p - minimumValue p) / step p)
          * step p))
  else
    Math_max (minimumValue p)
      (Math_min (maximumValue p)
         (ratio * (maximumValue p - minimumValue p) + minimumValue p)).


(** ** The touch area style *)

(** The colour name the debug style uses. *)
Inductive Color : Type :=
| orange.

(** The fields [_getTouchOverflowStyle] can set; a field that is not set
    is [None]. *)
Record ViewStyle : Type := mkStyle {
  marginTop : option number;
  marginBottom : option number;
  marginLeft : option number;
  marginRight : option number;
  backgroundColor : option Color;
  opacity : option number
}.

(** [_getTouchOverflowStyle]; [debugTouchArea] is the prop of that name.
    The two sizes are numbers, so the test that they are defined holds. *)
Definition _getTouchOverflowStyle (s : Slider) (debugTouchArea : bool)
  : ViewStyle :=
  let size := _getTouchOverflowSize s in
  let verticalMargin := neg (height size) / 2 in
  let horizontalMargin := neg (width size) / 2 in
  mkStyle (Some verticalMargin) (Some verticalMargin)
    (Some horizontalMargin) (Some horizontalMargin)
    (if debugTouchArea then Some orange else None)
    (if debugTouchArea then Some (Fin (1 # 2)) else None).

(** The size the state holds for a region. *)
Definition state_size (st : SliderState) (storeName : SizeEnum) : Size :=
  match storeName with
  | E_containerSize => containerSize st
  | E_trackSize => trackSize st
  | E_thumbSize => thumbSize st
  end.

(** The state shows the three stored sizes once [allMeasured] is true, and
    the sizes of the constructor before. *)
Definition state_in_sync (s : Slider) : Prop :=
  if allMeasured (state s)
  then forall r, get_store s r = Some (state_size (state s) r)
  else forall r, state_size (state s) r = mkSize 0 0.

(** Successive moves of one gesture. *)
Definition moves (s : Slider) (gs : list PanResponderGestureState) : Slider :=
  fold_left _handlePanResponderMove gs s.

(** [NaN] or an infinity. *)
Definition nonfinite (a : number) : bool := isNaN a || isInf a.

(** * Properties *)

(** ** Frame lemmas: what each operation leaves alone *)

Lemma fire_frame (s : Slider) (event : EventEnum) :
  props (_fireChangeEvent s event) = props s /\
  state (_fireChangeEvent s event) = state s /\
  _previousLeft (_fireChangeEvent s event) = _previousLeft s /\
  currentValue (_fireChangeEvent s event) = currentValue s /\
  listenerCalls (_fireChangeEvent s event) = listenerCalls s /\
  (forall r, get_store (_fireChangeEvent s event) r = get_store s r).
Proof.
  unfold _fireChangeEvent.
  destruct (has_callback (props s) event); repeat split; intros [] ; reflexivity.
Qed.

Lemma fire_effects (s : Slider) (event : EventEnum) :
  effects (_fireChangeEvent s event) =
  effects s ++
  (if has_callback (props s) event
   then [Callback event (currentValue s)] else []).
Proof.
  unfold _fireChangeEvent.
  destruct (has_callback (props s) event); simpl.
  - reflexivity.
  - now rewrite app_nil_r.
Qed.

Lemma strict_eq_refl (a : number) : isNaN a = false -> (a === a) = true.
Proof.
  destruct a; simpl; intros H; try reflexivity; try discriminate.
  apply Qeq_bool_iff. reflexivity.
Qed.

Lemma get_set_store (s : Slider) (r : SizeEnum) (size : Size) :
  get_store (set_store s r size) r = Some size.
Proof. destruct r; reflexivity. Qed.

Lemma measure_store_frame (s : Slider) (r : SizeEnum) (w h : number) :
  isNaN w = false -> isNaN h = false ->
  exists size,
    get_store (_handleMeasure s r w h) r = Some size /\
    (w === width size) = true /\ (h === height size) = true.
Proof.
  intros Hw Hh. unfold _handleMeasure.
  destruct (get_store s r) as [cur|] eqn:Hcur.
  - destruct ((w === width cur) && (h === height cur)) eqn:Heq.
    + apply andb_prop in Heq. exists cur. tauto.
    + exists (mkSize w h).
      assert (Hs := get_set_store s r (mkSize w h)).
      destruct (_containerSize (set_store s r (mkSize w h))),
               (_trackSize (set_store s r (mkSize w h))),
               (_thumbSize (set_store s r (mkSize w h)));
        (split; [destruct r; exact Hs | simpl; split; now apply strict_eq_refl]).
  - exists (mkSize w h).
    assert (Hs := get_set_store s r (mkSize w h)).
    destruct (_containerSize (set_store s r (mkSize w h))),
             (_trackSize (set_store s r (mkSize w h))),
             (_thumbSize (set_store s r (mkSize w h)));
      (split; [destruct r; exact Hs | simpl; split; now apply strict_eq_refl]).
Qed.

Lemma measure_same (s : Slider) (r : SizeEnum) (w h : number) (size : Size) :
  get_store s r = Some size ->
  (w === width size) = true -> (h === height size) = true ->
  _handleMeasure s r w h = s.
Proof.
  intros Hs Hw Hh. unfold _handleMeasure. now rewrite Hs, Hw, Hh.
Qed.

(** ** C9: a layout that repeats the stored size *)

(** C9.  For each of the three regions, a layout whose width and height
    are strictly equal ([===]) to the size stored for that region in the
    instance field returns the instance as it was: nothing is stored, no
    [setState] is logged, [allMeasured] and the three sizes of the state
    are the same.  And measuring the thumb at 20 by 20 twice in a row
    leaves, after the second call, exactly what the first call left. *)
Theorem measure_stored_size_is_noop
  (s : Slider) (r : SizeEnum) (w h : number) (size : Size) :
  get_store s r = Some size ->
  (w === width size) = true ->
  (h === height size) = true ->
  _handleMeasure s r w h = s /\
  effects (_handleMeasure s r w h) = effects s /\
  state (_handleMeasure s r w h) = state s /\
  (forall r', get_store (_handleMeasure s r w h) r' = get_store s r') /\
  _measureThumb (_measureThumb s 20 20) 20 20 = _measureThumb s 20 20.
Proof.
  intros Hs Hw Hh.
  rewrite (measure_same s r w h size Hs Hw Hh).
  repeat split.
  unfold _measureThumb.
  destruct (measure_store_frame s E_thumbSize 20 20 eq_refl eq_refl)
    as (sz & H1 & H2 & H3).
  now apply (measure_same _ _ _ _ sz).
Qed.

Lemma measure_stored_size_is_noop_witness :
  let s := _measureContainer (constructor defaultProps false) 300 40 in
  _handleMeasure s E_containerSize 300 40 = s /\
  effects (_handleMeasure s E_containerSize 300 40) = effects s /\
  state (_handleMeasure s E_containerSize 300 40) = state s /\
  (forall r', get_store (_handleMeasure s E_containerSize 300 40) r' =
              get_store s r') /\
  _measureThumb (_measureThumb s 20 20) 20 20 = _measureThumb s 20 20.
Proof.
  intro s.
  apply (measure_stored_size_is_noop s E_containerSize 300 40 (mkSize 300 40));
    reflexivity.
Defined.

(** ** C7: a disabled slider ignores move and end *)

(** C7.  When [disabled] is true as a move, a release or a termination
    arrives, the move handler and the end handler return the instance as
    it was: the animated value and [currentValue] are not written, no
    callback is logged, and [_previousLeft] is the same. *)
Theorem disabled_move_end_do_nothing
  (s : Slider) (g : PanResponderGestureState) :
  disabled (props s) = true ->
  _handlePanResponderMove s g = s /\
  _handlePanResponderEnd s g = s /\
  effects (_handlePanResponderMove s g) = effects s /\
  effects (_handlePanResponderEnd s g) = effects s /\
  state_value (state (_handlePanResponderMove s g)) = state_value (state s) /\
  state_value (state (_handlePanResponderEnd s g)) = state_value (state s) /\
  _previousLeft (_handlePanResponderMove s g) = _previousLeft s /\
  _previousLeft (_handlePanResponderEnd s g) = _previousLeft s.
Proof.
  intros Hd. unfold _handlePanResponderMove, _handlePanResponderEnd.
  rewrite Hd. repeat split.
Qed.

Lemma disabled_move_end_do_nothing_witness :
  let s :=
    _handlePanResponderGrant
      (constructor (mkProps 0 true 0 1 0 (mkSize 40 40) true true true false)
         false) in
  let g := mkGesture 25 in
  _handlePanResponderMove s g = s /\
  _handlePanResponderEnd s g = s /\
  effects (_handlePanResponderMove s g) = effects s /\
  effects (_handlePanResponderEnd s g) = effects s /\
  state_value (state (_handlePanResponderMove s g)) = state_value (state s) /\
  state_value (state (_handlePanResponderEnd s g)) = state_value (state s) /\
  _previousLeft (_handlePanResponderMove s g) = _previousLeft s /\
  _previousLeft (_handlePanResponderEnd s g) = _previousLeft s.
Proof.
  intros s g. apply (disabled_move_end_do_nothing s g). reflexivity.
Defined.

(** ** C10: the readable value before the first notification *)

Lemma measure_frame (s : Slider) (r : SizeEnum) (w h : number) :
  props (_handleMeasure s r w h) = props s /\
  _previousLeft (_handleMeasure s r w h) = _previousLeft s /\
  currentValue (_handleMeasure s r w h) = currentValue s /\
  listenerCalls (_handleMeasure s r w h) = listenerCalls s.
Proof.
  unfold _handleMeasure.
  destruct (match get_store s r with
            | Some currentSize =>
                (w === width currentSize) && (h === height currentSize)
            | None => false
            end); [repeat split|].
  destruct (_containerSize (set_store s r (mkSize w h))),
           (_trackSize (set_store s r (mkSize w h))),
           (_thumbSize (set_store s r (mkSize w h)));
    destruct r; repeat split.
Qed.

Lemma exec_unnotified (s : Slider) (o : Op) :
  unnotified_reads_zero s -> unnotified_reads_zero (exec s o).
Proof.
  unfold unnotified_reads_zero. intros IH.
  destruct o as [r w h| |g|g|v|p]; simpl.
  - destruct (measure_frame s r w h) as (_ & _ & Hc & Hl).
    rewrite Hc, Hl. exact IH.
  - unfold _handlePanResponderGrant.
    destruct (fire_frame
                (with_previousLeft s (_getThumbLeft s (_getCurrentValue s)))
                onSlidingStart) as (_ & _ & _ & Hc & Hl & _).
    rewrite Hc, Hl. exact IH.
  - unfold _handlePanResponderMove.
    destruct (disabled (props s)); [exact IH|].
    destruct (fire_frame (_setCurrentValue s (_getValue s g)) onValueChange)
      as (_ & _ & _ & _ & Hl & _).
    rewrite Hl. discriminate.
  - unfold _handlePanResponderEnd.
    destruct (disabled (props s)); [exact IH|].
    destruct (fire_frame (_setCurrentValue s (_getValue s g))
                onSlidingComplete) as (_ & _ & _ & _ & Hl & _).
    rewrite Hl. discriminate.
  - discriminate.
  - unfold componentWillReceiveProps.
    destruct (negb (value (props s) === or_else (value p) 0)); [|exact IH].
    destruct (animateTransitions (props s)); [exact IH | discriminate].
Qed.

Lemma run_unnotified (ops : list Op) (s : Slider) :
  unnotified_reads_zero s -> unnotified_reads_zero (run s ops).
Proof.
  revert s. induction ops as [|o ops IH]; intros s Hs; simpl.
  - exact Hs.
  - apply IH, exec_unnotified, Hs.
Qed.

(** C10.  Whatever the props (the initial [value] included) and whatever
    has been done to the instance since the constructor, if the listener
    of the animated value has not been called yet then [currentValue], and
    so [_getCurrentValue], is 0; a grant at that point anchors
    [_previousLeft] at the thumb offset of 0 and reports 0 to
    [onSlidingStart] when that callback is given. *)
Theorem current_value_is_zero_until_notified
  (p : SliderProps) (rtl : bool) (ops : list Op) :
  let s := run (constructor p rtl) ops in
  listenerCalls s = 0%nat ->
  currentValue s = Fin 0 /\
  _getCurrentValue s = Fin 0 /\
  _previousLeft (_handlePanResponderGrant s) = _getThumbLeft s (Fin 0) /\
  effects (_handlePanResponderGrant s) =
    effects s ++
    (if has_onSlidingStart (props s)
     then [Callback onSlidingStart (Fin 0)] else []).
Proof.
  intros s Hl.
  assert (Hc : currentValue s = Fin 0).
  { apply (run_unnotified ops (constructor p rtl)); [|exact Hl].
    intros _. reflexivity. }
  split; [exact Hc|]. split; [exact Hc|].
  unfold _handlePanResponderGrant, _getCurrentValue. rewrite Hc.
  split.
  - now destruct (fire_frame (with_previousLeft s (_getThumbLeft s (Fin 0)))
                    onSlidingStart) as (_ & _ & -> & _).
  - rewrite fire_effects. simpl. now rewrite Hc.
Qed.

Lemma current_value_is_zero_until_notified_witness :
  let p := mkProps (7 # 10) false 0 1 0 (mkSize 40 40) true true true false in
  let s :=
    run (constructor p false)
      [OpMeasure E_containerSize 300 40; OpMeasure E_trackSize 300 4;
       OpMeasure E_thumbSize 20 20] in
  currentValue s = Fin 0 /\
  _getCurrentValue s = Fin 0 /\
  _previousLeft (_handlePanResponderGrant s) = _getThumbLeft s (Fin 0) /\
  effects (_handlePanResponderGrant s) =
    effects s ++
    (if has_onSlidingStart (props s)
     then [Callback onSlidingStart (Fin 0)] else []).
Proof.
  intros p s.
  apply (current_value_is_zero_until_notified p false
           [OpMeasure E_containerSize 300 40; OpMeasure E_trackSize 300 4;
            OpMeasure E_thumbSize 20 20]).
  reflexivity.
Defined.

(** ** C8: when [allMeasured] becomes true *)

Lemma measure_store_same (s : Slider) (r : SizeEnum) (w h : number) :
  is_some (get_store (_handleMeasure s r w h) r) = true.
Proof.
  unfold _handleMeasure.
  destruct (get_store s r) as [cur|] eqn:Hcur.
  - destruct ((w === width cur) && (h === height cur)).
    + now rewrite Hcur.
    + destruct r; simpl in *;
        repeat match goal with
               | |- context [match ?x with Some _ => _ | None => _ end] =>
                   destruct x
               end; reflexivity.
  - destruct r; simpl in *;
      repeat match goal with
             | |- context [match ?x with Some _ => _ | None => _ end] =>
                 destruct x
             end; reflexivity.
Qed.

Lemma measure_store_other (s : Slider) (r r' : SizeEnum) (w h : number) :
  r <> r' ->
  get_store (_handleMeasure s r w h) r' = get_store s r'.
Proof.
  intros Hne. unfold _handleMeasure.
  destruct (match get_store s r with
            | Some currentSize =>
                (w === width currentSize) && (h === height currentSize)
            | None => false
            end); [reflexivity|].
  destruct r, r'; try congruence; simpl;
    repeat match goal with
           | |- context [match ?x with Some _ => _ | None => _ end] =>
               destruct x
           end; reflexivity.
Qed.

Lemma measure_all_stored (s : Slider) (r : SizeEnum) (w h : number) :
  allMeasured (state s) = all_stored s ->
  allMeasured (state (_handleMeasure s r w h)) =
  all_stored (_handleMeasure s r w h).
Proof.
  unfold _handleMeasure, all_stored. intros Inv.
  destruct (match get_store s r with
            | Some currentSize =>
                (w === width currentSize) && (h === height currentSize)
            | None => false
            end); [exact Inv|].
  destruct r; simpl in *;
    destruct (_containerSize s), (_trackSize s), (_thumbSize s);
    simpl in *; congruence.
Qed.

Lemma exec_all_stored (s : Slider) (o : Op) :
  allMeasured (state s) = all_stored s ->
  allMeasured (state (exec s o)) = all_stored (exec s o).
Proof.
  intros Inv. destruct o as [r w h| |g|g|v|p]; simpl.
  - now apply measure_all_stored.
  - unfold _handlePanResponderGrant, _fireChangeEvent.
    destruct (has_callback _ _); exact Inv.
  - unfold _handlePanResponderMove, _fireChangeEvent.
    destruct (disabled (props s)); [exact Inv|].
    destruct (has_callback _ _); exact Inv.
  - unfold _handlePanResponderEnd, _fireChangeEvent.
    destruct (disabled (props s)); [exact Inv|].
    destruct (has_callback _ _); exact Inv.
  - exact Inv.
  - unfold componentWillReceiveProps.
    destruct (negb _); [|exact Inv].
    destruct (animateTransitions (props s)); exact Inv.
Qed.

Lemma exec_store (s : Slider) (o : Op) (r : SizeEnum) :
  is_some (get_store (exec s o) r) =
  is_some (get_store s r) || measures r o.
Proof.
  destruct o as [r0 w h| |g|g|v|p]; simpl.
  - assert (Hd : r0 = r \/ r0 <> r) by (destruct r0, r; auto; right; discriminate).
    destruct Hd as [->|Hne].
    + rewrite measure_store_same.
      destruct r; simpl; now rewrite orb_true_r.
    + rewrite (measure_store_other s r0 r w h Hne).
      destruct r0, r; try congruence; simpl; now rewrite orb_false_r.
  - unfold _handlePanResponderGrant, _fireChangeEvent.
    destruct (has_callback _ _); destruct r; simpl; now rewrite orb_false_r.
  - unfold _handlePanResponderMove, _fireChangeEvent.
    destruct (disabled (props s)); [now rewrite orb_false_r|].
    destruct (has_callback _ _); destruct r; simpl; now rewrite orb_false_r.
  - unfold _handlePanResponderEnd, _fireChangeEvent.
    destruct (disabled (props s)); [now rewrite orb_false_r|].
    destruct (has_callback _ _); destruct r; simpl; now rewrite orb_false_r.
  - destruct r; simpl; now rewrite orb_false_r.
  - unfold componentWillReceiveProps.
    destruct (negb _); [|destruct r; simpl; now rewrite orb_false_r].
    destruct (animateTransitions (props s));
      destruct r; simpl; now rewrite orb_false_r.
Qed.

Lemma run_store (ops : list Op) (s : Slider) (r : SizeEnum) :
  is_some (get_store (run s ops) r) =
  is_some (get_store s r) || existsb (measures r) ops.
Proof.
  revert s. induction ops as [|o ops IH]; intros s; simpl.
  - now rewrite orb_false_r.
  - unfold run in *. simpl. rewrite IH, exec_store. now rewrite orb_assoc.
Qed.

Lemma run_all_stored (ops : list Op) (s : Slider) :
  allMeasured (state s) = all_stored s ->
  allMeasured (state (run s ops)) = all_stored (run s ops).
Proof.
  revert s. induction ops as [|o ops IH]; intros s Inv; simpl.
  - exact Inv.
  - apply IH, exec_all_stored, Inv.
Qed.

(** C8, as the code has it.  After any operations on a fresh instance,
    [allMeasured] is true exactly when each of the three regions had at
    least one layout, whatever the dimensions of these layouts: a size
    object is stored at the first layout of a region, and the test of the
    three fields is a test of presence. *)
Theorem allMeasured_iff_each_region_measured
  (p : SliderProps) (rtl : bool) (ops : list Op) :
  allMeasured (state (run (constructor p rtl) ops)) =
  each_region_measured ops.
Proof.
  rewrite run_all_stored by reflexivity.
  unfold all_stored, each_region_measured.
  change (_containerSize ?s) with (get_store s E_containerSize).
  change (_trackSize ?s) with (get_store s E_trackSize).
  change (_thumbSize ?s) with (get_store s E_thumbSize).
  now rewrite !run_store.
Qed.

(** C8 fails as stated: three layouts of size zero make [allMeasured]
    true, with the three stored sizes zero by zero. *)
Lemma zero_size_layouts_make_allMeasured :
  let s :=
    run (constructor defaultProps false)
      [OpMeasure E_containerSize 0 0; OpMeasure E_trackSize 0 0;
       OpMeasure E_thumbSize 0 0] in
  allMeasured (state s) = true /\
  containerSize (state s) = mkSize 0 0 /\
  trackSize (state s) = mkSize 0 0 /\
  thumbSize (state s) = mkSize 0 0.
Proof. repeat split. Qed.

(** ** C6: who grants the gesture *)

Lemma dispatch_idle_miss (c : Controller) (t : Touch) :
  dragging c = false -> misses (slider c) t = true -> dispatch c t = c.
Proof.
  intros Hd Hm. destruct t as [e|e g|g|g]; simpl; rewrite Hd; try reflexivity.
  unfold _handleStartShouldSetPanResponder, _thumbHitTest.
  simpl in Hm. apply negb_true_iff in Hm. now rewrite Hm.
Qed.

Lemma dispatch_all_idle_miss (ts : list Touch) (c : Controller) :
  dragging c = false -> forallb (misses (slider c)) ts = true ->
  dispatch_all c ts = c.
Proof.
  induction ts as [|t ts IH]; intros Hd Hm; simpl in *.
  - reflexivity.
  - apply andb_prop in Hm. destruct Hm as [Ht Hts].
    rewrite (dispatch_idle_miss c t Hd Ht). now apply IH.
Qed.

(** C6.  The start handler answers with the containment test of the
    press in the enlarged touch rect, edges included; the move handler
    answers false.  So an idle controller that receives touches whose
    presses all fall outside the touch rect stays as it was: it is not
    dragging, and no call of [onSlidingStart] (nor anything else) is added
    to the log. *)
Theorem gesture_granted_only_by_start_on_thumb
  (c : Controller) (e : GestureResponderEvent) (ts : list Touch) :
  dragging c = false ->
  forallb (misses (slider c)) ts = true ->
  _handleStartShouldSetPanResponder (slider c) e =
    containsPoint (_getThumbTouchRect (slider c)) (locationX e) (locationY e)
  /\ _handleMoveShouldSetPanResponder (slider c) = false
  /\ dispatch_all c ts = c
  /\ dragging (dispatch_all c ts) = false
  /\ effects (slider (dispatch_all c ts)) = effects (slider c)
  /\ (dragging (dispatch c (TouchStart e)) = true ->
      containsPoint (_getThumbTouchRect (slider c)) (locationX e)
        (locationY e) = true).
Proof.
  intros Hd Hm.
  rewrite (dispatch_all_idle_miss ts c Hd Hm).
  repeat split; try assumption.
  simpl. rewrite Hd.
  unfold _handleStartShouldSetPanResponder, _thumbHitTest.
  destruct (containsPoint _ _ _); [reflexivity|].
  rewrite Hd. discriminate.
Qed.

Lemma gesture_granted_only_by_start_on_thumb_witness :
  let s :=
    run (constructor defaultProps false)
      [OpMeasure E_containerSize 300 40; OpMeasure E_trackSize 300 4;
       OpMeasure E_thumbSize 20 20] in
  let c := mkController s false in
  let e := mkEvent 10 20 in
  let ts := [TouchStart (mkEvent 200 20);
             TouchMove (mkEvent 10 20) (mkGesture (-190));
             TouchRelease (mkGesture (-190))] in
  _handleStartShouldSetPanResponder (slider c) e =
    containsPoint (_getThumbTouchRect (slider c)) (locationX e) (locationY e)
  /\ _handleMoveShouldSetPanResponder (slider c) = false
  /\ dispatch_all c ts = c
  /\ dragging (dispatch_all c ts) = false
  /\ effects (slider (dispatch_all c ts)) = effects (slider c)
  /\ (dragging (dispatch c (TouchStart e)) = true ->
      containsPoint (_getThumbTouchRect (slider c)) (locationX e)
        (locationY e) = true).
Proof.
  intros s c e ts.
  apply (gesture_granted_only_by_start_on_thumb c e ts); reflexivity.
Defined.

(** ** Numbers: rounding, [NaN] and the infinities *)

Ltac qprop :=
  repeat match goal with
  | H : Qeq_bool _ _ = true |- _ => apply Qeq_bool_iff in H
  | H : Qeq_bool _ _ = false |- _ => apply Qeq_bool_neq in H
  | H : Qle_bool _ _ = true |- _ => apply Qle_bool_iff in H
  | H : Qle_bool ?x ?y = false |- _ =>
      assert (~ (x <= y)%Q) by (rewrite <- Qle_bool_iff; congruence); clear H
  | H : (_ ?= _)%Q = Eq |- _ => apply Qeq_alt in H
  | H : (_ ?= _)%Q = Lt |- _ => apply Qlt_alt in H
  | H : (_ ?= _)%Q = Gt |- _ => apply Qgt_alt in H
  end.

Ltac qcase :=
  match goal with
  | |- context [Qeq_bool ?x ?y] => destruct (Qeq_bool x y) eqn:?
  | |- context [Qle_bool ?x ?y] => destruct (Qle_bool x y) eqn:?
  | |- context [(?x ?= ?y)%Q] => destruct (x ?= y)%Q eqn:?
  end.

Ltac qcases := repeat qcase; qprop.

Lemma pow2_pos (e : Z) : (0 < pow2 e)%Q.
Proof. apply Qpower_0_lt. reflexivity. Qed.

(** A rounded value is finite or an infinity. *)
Lemma round64_not_NaN (q : Q) : isNaN (round64 q) = false.
Proof.
  unfold round64.
  destruct (Qle_bool (pow2 1024) _); [destruct (Qle_bool 0 q)|]; reflexivity.
Qed.

Lemma rne_zero (x : Q) : (x == 0)%Q -> rne x = 0%Z.
Proof.
  intros H. unfold rne.
  assert (Hf : Qfloor x = 0%Z) by (rewrite H; reflexivity).
  rewrite Hf. change (inject_Z 0) with 0%Q.
  destruct (Qcompare_spec (x - 0) (1 # 2)) as [E|E|E];
    try reflexivity; exfalso; lra.
Qed.

(** Zero rounds to zero. *)
Lemma round64_zero (q : Q) : (q == 0)%Q -> round64 q = Fin 0.
Proof.
  intros H. unfold round64. cbv zeta.
  set (u := pow2 (Z.max (exp_of (Qabs q)) (-1022) - 52)).
  assert (Hu : (0 < u)%Q) by apply pow2_pos.
  assert (Hq : (q / u == 0)%Q) by (rewrite H; field; lra).
  rewrite (rne_zero _ Hq).
  assert (Hr : Qred (inject_Z 0 * u) = 0%Q).
  { change 0%Q with (Qred 0). apply Qred_complete. ring. }
  rewrite Hr.
  assert (Hb : Qle_bool (pow2 1024) (Qabs 0) = false).
  { apply not_true_is_false. intros E. apply Qle_bool_iff in E.
    assert (Hp := pow2_pos 1024). simpl Qabs in E. change (0 # 1) with 0%Q in E. lra. }
  now rewrite Hb.
Qed.

Lemma isNaN_true (x : number) : isNaN x = true -> x = NaN.
Proof. destruct x; simpl; congruence. Qed.

Lemma nonfinite_round64_cases (q : Q) :
  (exists r, round64 q = Fin r) \/ round64 q = PInf \/ round64 q = NInf.
Proof.
  unfold round64.
  destruct (Qle_bool (pow2 1024) _); [destruct (Qle_bool 0 q)|]; eauto.
Qed.

Lemma nonfinite_inf_times (q : Q) : nonfinite (inf_times q) = true.
Proof. unfold inf_times. now destruct (q ?= 0)%Q. Qed.

(** Anything over a finite zero is [NaN] or an infinity. *)
Lemma nonfinite_div_zero (x : number) : nonfinite (x / Fin 0) = true.
Proof.
  destruct x; try reflexivity. simpl. apply nonfinite_inf_times.
Qed.

Lemma nonfinite_mirror (x : number) :
  nonfinite x = true -> nonfinite (Fin 1 - x) = true.
Proof. now destruct x. Qed.

Lemma nonfinite_mul_fin (x : number) (y : Q) :
  nonfinite x = true -> nonfinite (x * Fin y) = true.
Proof.
  destruct x; try discriminate; intros _; simpl;
    try reflexivity; unfold inf_times; now destruct (y ?= 0)%Q.
Qed.

Lemma nonfinite_add_fin_l (a : Q) (x : number) :
  nonfinite x = true -> nonfinite (Fin a + x) = true.
Proof. now destruct x. Qed.

Lemma nonfinite_add_fin_r (x : number) (a : Q) :
  nonfinite x = true -> nonfinite (x + Fin a) = true.
Proof. now destruct x. Qed.

(** Clamping: [Math.max(mn, Math.min(mx, x))]. *)
Lemma clamp_cases (mn mx : Q) (x : number) :
  Math_max (Fin mn) (Math_min (Fin mx) x) =
  match x with
  | Fin y => Fin (qmax mn (qmin mx y))
  | PInf => Fin (qmax mn mx)
  | NInf => Fin mn
  | NaN => NaN
  end.
Proof. now destruct x. Qed.

Lemma qmin_cases (x y : Q) :
  ((x <= y)%Q /\ qmin x y = x) \/ ((y < x)%Q /\ qmin x y = y).
Proof. unfold qmin. qcases; [left | right]; split; reflexivity || lra. Qed.

Lemma qmax_cases (x y : Q) :
  ((x <= y)%Q /\ qmax x y = y) \/ ((y < x)%Q /\ qmax x y = x).
Proof. unfold qmax. qcases; [left | right]; split; reflexivity || lra. Qed.

Ltac qclamp :=
  repeat match goal with
  | |- context [qmin ?a ?b] => destruct (qmin_cases a b) as [[? ->]|[? ->]]
  | |- context [qmax ?a ?b] => destruct (qmax_cases a b) as [[? ->]|[? ->]]
  end.

Lemma clamp_bounds (mn mx : Q) (x : number) :
  (mn <= mx)%Q -> isNaN x = false ->
  exists v, Math_max (Fin mn) (Math_min (Fin mx) x) = Fin v /\
            (mn <= v)%Q /\ (v <= mx)%Q.
Proof.
  intros Hle Hx. rewrite clamp_cases. destruct x; try discriminate.
  - eexists; split; [reflexivity|]. qclamp; lra.
  - eexists; split; [reflexivity|]. qclamp; lra.
  - eexists; split; [reflexivity|]. lra.
Qed.

(** [NaN] goes through the rest of [_getValue], whatever the props. *)
Lemma value_of_NaN (p : SliderProps) : value_of_ratio p NaN = NaN.
Proof.
  unfold value_of_ratio.
  destruct (truthy (step p)); simpl.
  - destruct (maximumValue p - minimumValue p); simpl;
      destruct (step p); simpl;
      destruct (minimumValue p); simpl;
      destruct (maximumValue p); reflexivity.
  - destruct (maximumValue p - minimumValue p); simpl;
      destruct (minimumValue p); simpl;
      destruct (maximumValue p); reflexivity.
Qed.

Lemma getValue_value_of_ratio (s : Slider) (g : PanResponderGestureState) :
  _getValue s g =
  value_of_ratio (props s)
    (if isRTL s then 1 - raw_ratio s g else raw_ratio s g).
Proof. reflexivity. Qed.

(** ** C1: the value before any layout *)

(** C1.  The claim fails at the fresh instance: before any layout the
    state sizes are 0 by 0, so the track length is [0 - 0]; with the
    anchor 0 a drag of 0 divides zero by zero, [NaN] goes through
    [Math.min] and [Math.max], and [_getValue] returns [NaN], which is in
    no range, although [minimumValue = 0 <= maximumValue = 1].  The same
    happens with a step. *)
Lemma getValue_unmeasured_is_NaN :
  let s := constructor defaultProps false in
  let s' :=
    constructor (mkProps 0 false 0 1 (1 # 10) (mkSize 40 40)
                   false false false false) false in
  minimumValue (props s) = Fin 0 /\ maximumValue (props s) = Fin 1 /\
  _getValue s (mkGesture 0) = NaN /\
  _getValue s' (mkGesture 0) = NaN.
Proof. repeat split. Qed.

(** ** C4: the divisions have no guard *)




(** ** C2: values on the step grid *)





(** ** C5: the right-to-left mirror *)



(** ** The scenarios of the specification, run on the embedding *)

(** Range [[0, 1]], no step, container 300 wide, thumb 20 wide: a drag of
    140 from a grant at the value 0 gives [1/2]. *)
Example scenario_half_track :
  let s :=
    run (constructor defaultProps false)
      [OpMeasure E_containerSize 300 40; OpMeasure E_trackSize 300 4;
       OpMeasure E_thumbSize 20 20; OpGrant] in
  eqv (_getValue s (mkGesture 140)) (Fin (1 # 2)).
Proof. vm_compute. reflexivity. Qed.

(** Range [[0, 100]], step 10, same geometry: a drag of 133 gives 50, and
    the move handler reports it to [onValueChange]. *)
Example scenario_step_ten :
  let s :=
    run (constructor (mkProps 0 false 0 100 10 (mkSize 40 40)
                        true false false false) false)
      [OpMeasure E_containerSize 300 40; OpMeasure E_trackSize 300 4;
       OpMeasure E_thumbSize 20 20; OpGrant] in
  _getValue s (mkGesture 133) = Fin 50 /\
  currentValue (_handlePanResponderMove s (mkGesture 133)) = Fin 50 /\
  last (effects (_handlePanResponderMove s (mkGesture 133)))
       (Callback onValueChange NaN) = Callback onValueChange (Fin 50).
Proof. vm_compute. repeat split. Qed.

(** [Math.round] sends a tie up, also below zero. *)
Example round_ties_go_up :
  eqv (Math_round (Fin (5 # 2))) (Fin 3) /\
  eqv (Math_round (Fin (- (5 # 2)))) (Fin (- (2))).
Proof. split; vm_compute; reflexivity. Qed.

(** The arithmetic rounds as binary64 does: [0.1 + 0.2] is
    [0.30000000000000004], [1 - 0.3] is [0.7], a sum past the largest
    value is an infinity, and half the smallest value is zero. *)
Example rounding_scenarios :
  (js (1 # 10) + js (2 # 10))%js =
    Fin (1351079888211149 # 4503599627370496) /\
  js (3 # 10) = Fin (5404319552844595 # 18014398509481984) /\
  (1 - js (3 # 10))%js = js (7 # 10) /\
  (js (1e308) - js (-1e308))%js = PInf /\
  (js (1 # 2 ^ 1074) / 2)%js = Fin 0.
Proof. vm_compute. repeat split. Qed.

(** * Further properties of the component *)

(** ** Gestures *)

(** What [Animated.Value.setValue] followed by a callback leaves alone. *)
Lemma set_and_fire_frame (s : Slider) (v : number) (event : EventEnum) :
  let s' := _fireChangeEvent (_setCurrentValue s v) event in
  props s' = props s /\
  containerSize (state s') = containerSize (state s) /\
  thumbSize (state s') = thumbSize (state s) /\
  _previousLeft s' = _previousLeft s /\
  isRTL s' = isRTL s /\
  currentValue s' = v /\
  state_value (state s') = v /\
  effects s' =
    effects s ++
    (if has_callback (props s) event then [Callback event v] else []).
Proof.
  unfold _fireChangeEvent, _setCurrentValue, Animated_setValue. simpl.
  destruct (has_callback (props s) event); simpl; repeat split.
  now rewrite app_nil_r.
Qed.

Lemma grant_frame (s : Slider) :
  let s' := _handlePanResponderGrant s in
  props s' = props s /\
  state s' = state s /\
  isRTL s' = isRTL s /\
  currentValue s' = currentValue s /\
  _previousLeft s' = _getThumbLeft s (currentValue s) /\
  effects s' =
    effects s ++
    (if has_onSlidingStart (props s)
     then [Callback onSlidingStart (currentValue s)] else []).
Proof.
  unfold _handlePanResponderGrant, _fireChangeEvent, _getCurrentValue. simpl.
  destruct (has_onSlidingStart (props s)); simpl; repeat split.
  now rewrite app_nil_r.
Qed.

(** [_getValue] reads the props, two widths, the anchor and the layout
    direction, nothing else. *)
Lemma getValue_reads (s s' : Slider) (g : PanResponderGestureState) :
  props s' = props s ->
  containerSize (state s') = containerSize (state s) ->
  thumbSize (state s') = thumbSize (state s) ->
  _previousLeft s' = _previousLeft s ->
  isRTL s' = isRTL s ->
  _getValue s' g = _getValue s g.
Proof.
  intros Hp Hc Ht Hl Hr. unfold _getValue. now rewrite Hp, Hc, Ht, Hl, Hr.
Qed.

Lemma move_frame (s : Slider) (g : PanResponderGestureState) :
  let s' := _handlePanResponderMove s g in
  props s' = props s /\
  containerSize (state s') = containerSize (state s) /\
  thumbSize (state s') = thumbSize (state s) /\
  _previousLeft s' = _previousLeft s /\
  isRTL s' = isRTL s.
Proof.
  unfold _handlePanResponderMove.
  destruct (disabled (props s)); [repeat split|].
  destruct (set_and_fire_frame s (_getValue s g) onValueChange)
    as (H1 & H2 & H3 & H4 & H5 & _).
  repeat split; assumption.
Qed.

Lemma moves_frame (gs : list PanResponderGestureState) (s : Slider) :
  props (moves s gs) = props s /\
  containerSize (state (moves s gs)) = containerSize (state s) /\
  thumbSize (state (moves s gs)) = thumbSize (state s) /\
  _previousLeft (moves s gs) = _previousLeft s /\
  isRTL (moves s gs) = isRTL s.
Proof.
  revert s. induction gs as [|g gs IH]; intros s; simpl.
  - repeat split.
  - destruct (IH (_handlePanResponderMove s g)) as (H1 & H2 & H3 & H4 & H5).
    destruct (move_frame s g) as (K1 & K2 & K3 & K4 & K5).
    unfold moves in *.
    rewrite H1, H2, H3, H4, H5. repeat split; assumption.
Qed.

(** X9.  While the slider is enabled, after a grant, any number of moves
    and a release, the value of the slider is the one [_getValue] gives
    for the last [dx] from the anchor taken at the grant: the moves in
    between leave no trace, and the anchor is the thumb offset of the
    value read at the grant. *)
Theorem gesture_value_depends_on_anchor_and_last_dx
  (s : Slider) (gs : list PanResponderGestureState)
  (g : PanResponderGestureState) :
  disabled (props s) = false ->
  let s' :=
    _handlePanResponderEnd (moves (_handlePanResponderGrant s) gs) g in
  currentValue s' = _getValue (_handlePanResponderGrant s) g /\
  state_value (state s') = _getValue (_handlePanResponderGrant s) g /\
  _previousLeft s' = _getThumbLeft s (currentValue s).
Proof.
  intros Hd s'.
  destruct (grant_frame s) as (G1 & G2 & G3 & G4 & G5 & _).
  destruct (moves_frame gs (_handlePanResponderGrant s))
    as (M1 & M2 & M3 & M4 & M5).
  set (sm := moves (_handlePanResponderGrant s) gs) in *.
  assert (Hdm : disabled (props sm) = false) by now rewrite M1, G1.
  unfold s', _handlePanResponderEnd. rewrite Hdm.
  destruct (set_and_fire_frame sm (_getValue sm g) onSlidingComplete)
    as (_ & _ & _ & E4 & _ & E6 & E7 & _).
  rewrite E4, E6, E7, M4, G5.
  rewrite (getValue_reads (_handlePanResponderGrant s) sm g M1 M2 M3 M4 M5).
  repeat split.
Qed.

Lemma gesture_value_depends_on_anchor_and_last_dx_witness :
  let s :=
    run (constructor (mkProps 0 false 0 100 10 (mkSize 40 40)
                        true true true false) false)
      [OpMeasure E_containerSize 300 40; OpMeasure E_trackSize 300 4;
       OpMeasure E_thumbSize 20 20; OpFrame 30] in
  let gs := [mkGesture 10; mkGesture 250; mkGesture (-40)] in
  let g := mkGesture 56 in
  let s' :=
    _handlePanResponderEnd (moves (_handlePanResponderGrant s) gs) g in
  currentValue s' = _getValue (_handlePanResponderGrant s) g /\
  state_value (state s') = _getValue (_handlePanResponderGrant s) g /\
  _previousLeft s' = _getThumbLeft s (currentValue s).
Proof.
  intros s gs g.
  apply (gesture_value_depends_on_anchor_and_last_dx s gs g). reflexivity.
Defined.

(** X10.  While the slider is enabled, a grant, a move and a release call
    the callbacks that are given in this order: [onSlidingStart] with the
    value read before the gesture, [onValueChange] with the value just
    computed for the move, [onSlidingComplete] with the value just computed
    for the release; a callback that is not given is skipped and nothing
    else is logged. *)
Theorem gesture_callbacks_in_order
  (s : Slider) (g1 g2 : PanResponderGestureState) :
  disabled (props s) = false ->
  effects (run s [OpGrant; OpMove g1; OpEnd g2]) =
  effects s ++
  (if has_onSlidingStart (props s)
   then [Callback onSlidingStart (currentValue s)] else []) ++
  (if has_onValueChange (props s)
   then [Callback onValueChange (_getValue (_handlePanResponderGrant s) g1)]
   else []) ++
  (if has_onSlidingComplete (props s)
   then [Callback onSlidingComplete
           (_getValue (_handlePanResponderGrant s) g2)]
   else []).
Proof.
  intros Hd. simpl.
  destruct (grant_frame s) as (G1 & G2 & G3 & G4 & G5 & G6).
  set (sg := _handlePanResponderGrant s) in *.
  assert (Hdg : disabled (props sg) = false) by now rewrite G1.
  unfold _handlePanResponderMove at 1. rewrite Hdg.
  destruct (set_and_fire_frame sg (_getValue sg g1) onValueChange)
    as (M1 & M2 & M3 & M4 & M5 & _ & _ & M8).
  set (sm := _fireChangeEvent (_setCurrentValue sg (_getValue sg g1))
               onValueChange) in *.
  assert (Hdm : disabled (props sm) = false) by now rewrite M1.
  unfold _handlePanResponderEnd. rewrite Hdm.
  destruct (set_and_fire_frame sm (_getValue sm g2) onSlidingComplete)
    as (_ & _ & _ & _ & _ & _ & _ & E8).
  rewrite E8, M8, G6, M1, G1.
  rewrite (getValue_reads sg sm g2 M1 M2 M3 M4 M5).
  simpl. now rewrite <- !app_assoc.
Qed.

Lemma gesture_callbacks_in_order_witness :
  let s :=
    run (constructor (mkProps 0 false 0 100 10 (mkSize 40 40)
                        true false true false) false)
      [OpMeasure E_containerSize 300 40; OpMeasure E_trackSize 300 4;
       OpMeasure E_thumbSize 20 20; OpFrame 30] in
  let g1 := mkGesture 100 in
  let g2 := mkGesture 120 in
  effects (run s [OpGrant; OpMove g1; OpEnd g2]) =
  effects s ++
  (if has_onSlidingStart (props s)
   then [Callback onSlidingStart (currentValue s)] else []) ++
  (if has_onValueChange (props s)
   then [Callback onValueChange (_getValue (_handlePanResponderGrant s) g1)]
   else []) ++
  (if has_onSlidingComplete (props s)
   then [Callback onSlidingComplete
           (_getValue (_handlePanResponderGrant s) g2)]
   else []).
Proof.
  intros s g1 g2.
  apply (gesture_callbacks_in_order s g1 g2). reflexivity.
Defined.

(** ** Measurement *)

Lemma measure_in_sync (s : Slider) (r : SizeEnum) (w h : number) :
  allMeasured (state s) = all_stored s ->
  state_in_sync s ->
  state_in_sync (_handleMeasure s r w h).
Proof.
  unfold state_in_sync, _handleMeasure, all_stored. intros Inv Hs.
  destruct (match get_store s r with
            | Some currentSize =>
                (w === width currentSize) && (h === height currentSize)
            | None => false
            end); [exact Hs|].
  destruct r; simpl in *;
    destruct (_containerSize s), (_trackSize s), (_thumbSize s);
    simpl in *; rewrite ?Inv in Hs; simpl in *;
    try (intros []; reflexivity); try exact Hs;
    rewrite Inv; exact Hs.
Qed.

Lemma exec_in_sync (s : Slider) (o : Op) :
  allMeasured (state s) = all_stored s ->
  state_in_sync s ->
  state_in_sync (exec s o).
Proof.
  intros Inv Hs. destruct o as [r w h| |g|g|v|p]; simpl.
  - now apply measure_in_sync.
  - unfold _handlePanResponderGrant, _fireChangeEvent.
    destruct (has_callback _ _); exact Hs.
  - unfold _handlePanResponderMove, _fireChangeEvent.
    destruct (disabled (props s)); [exact Hs|].
    destruct (has_callback _ _); exact Hs.
  - unfold _handlePanResponderEnd, _fireChangeEvent.
    destruct (disabled (props s)); [exact Hs|].
    destruct (has_callback _ _); exact Hs.
  - exact Hs.
  - unfold componentWillReceiveProps.
    destruct (negb _); [|exact Hs].
    destruct (animateTransitions (props s)); exact Hs.
Qed.

Lemma run_in_sync (ops : list Op) (s : Slider) :
  allMeasured (state s) = all_stored s ->
  state_in_sync s ->
  state_in_sync (run s ops).
Proof.
  revert s. induction ops as [|o ops IH]; intros s Inv Hs; simpl.
  - exact Hs.
  - apply IH; [now apply exec_all_stored | now apply exec_in_sync].
Qed.

(** X14.  After any operations on a fresh instance, the state either has
    [allMeasured] false and its three sizes still 0 by 0, whatever layouts
    came in so far, or has [allMeasured] true and its three sizes equal to
    the three stored ones: the state never shows a part of the
    measurements. *)
Theorem state_shows_all_sizes_or_none
  (p : SliderProps) (rtl : bool) (ops : list Op) :
  let s := run (constructor p rtl) ops in
  (allMeasured (state s) = false /\
   containerSize (state s) = mkSize 0 0 /\
   trackSize (state s) = mkSize 0 0 /\
   thumbSize (state s) = mkSize 0 0) \/
  (allMeasured (state s) = true /\
   _containerSize s = Some (containerSize (state s)) /\
   _trackSize s = Some (trackSize (state s)) /\
   _thumbSize s = Some (thumbSize (state s))).
Proof.
  intros s.
  assert (H : state_in_sync s).
  { apply run_in_sync; [reflexivity|]. intros []; reflexivity. }
  unfold state_in_sync in H.
  destruct (allMeasured (state s)); [right | left].
  - repeat split.
    + exact (H E_containerSize).
    + exact (H E_trackSize).
    + exact (H E_thumbSize).
  - repeat split.
    + exact (H E_containerSize).
    + exact (H E_trackSize).
    + exact (H E_thumbSize).
Qed.

Lemma exec_keeps_allMeasured (s : Slider) (o : Op) :
  allMeasured (state s) = true -> allMeasured (state (exec s o)) = true.
Proof.
  intros H. destruct o as [r w h| |g|g|v|p]; simpl.
  - unfold _handleMeasure.
    destruct (match get_store s r with
              | Some currentSize =>
                  (w === width currentSize) && (h === height currentSize)
              | None => false
              end); [exact H|].
    destruct (_containerSize (set_store s r (mkSize w h))),
             (_trackSize (set_store s r (mkSize w h))),
             (_thumbSize (set_store s r (mkSize w h)));
      try reflexivity; destruct r; exact H.
  - unfold _handlePanResponderGrant, _fireChangeEvent.
    destruct (has_callback _ _); exact H.
  - unfold _handlePanResponderMove, _fireChangeEvent.
    destruct (disabled (props s)); [exact H|].
    destruct (has_callback _ _); exact H.
  - unfold _handlePanResponderEnd, _fireChangeEvent.
    destruct (disabled (props s)); [exact H|].
    destruct (has_callback _ _); exact H.
  - exact H.
  - unfold componentWillReceiveProps.
    destruct (negb _); [|exact H].
    destruct (animateTransitions (props s)); exact H.
Qed.

(** X15.  No operation puts [allMeasured] back to false: once it is true
    it stays true through layouts of any size, gestures, animation frames
    and new props, from any instance. *)
Theorem allMeasured_is_never_reset (s : Slider) (ops : list Op) :
  allMeasured (state s) = true ->
  allMeasured (state (run s ops)) = true.
Proof.
  revert s. induction ops as [|o ops IH]; intros s H; simpl.
  - exact H.
  - apply IH, exec_keeps_allMeasured, H.
Qed.

Lemma allMeasured_is_never_reset_witness :
  let s :=
    run (constructor defaultProps false)
      [OpMeasure E_containerSize 300 40; OpMeasure E_trackSize 300 4;
       OpMeasure E_thumbSize 20 20] in
  allMeasured
    (state (run s [OpMeasure E_thumbSize 0 0; OpGrant;
                   OpMove (mkGesture 10); OpMeasure E_containerSize 0 0]))
  = true.
Proof.
  intros s.
  apply (allMeasured_is_never_reset s
           [OpMeasure E_thumbSize 0 0; OpGrant; OpMove (mkGesture 10);
            OpMeasure E_containerSize 0 0]).
  reflexivity.
Defined.

Lemma run_snoc (s : Slider) (ops : list Op) (o : Op) :
  run s (ops ++ [o]) = exec (run s ops) o.
Proof. unfold run. now rewrite fold_left_app. Qed.

(** X16.  The last layout wins: when a layout of a region with a width
    and a height that are numbers comes in and, with it, each of the three
    regions has had a layout, the state holds this width and this height
    for the region (equal by [===]). *)
Theorem last_layout_reaches_the_state
  (p : SliderProps) (rtl : bool) (ops : list Op)
  (r : SizeEnum) (w h : number) :
  isNaN w = false -> isNaN h = false ->
  each_region_measured (ops ++ [OpMeasure r w h]) = true ->
  let s := run (constructor p rtl) (ops ++ [OpMeasure r w h]) in
  allMeasured (state s) = true /\
  (w === width (state_size (state s) r)) = true /\
  (h === height (state_size (state s) r)) = true.
Proof.
  intros Hw Hh Hall s.
  assert (Hsync : state_in_sync s).
  { apply run_in_sync; [reflexivity|]. intros []; reflexivity. }
  assert (Hm : allMeasured (state s) = true).
  { unfold s. rewrite run_all_stored by reflexivity.
    unfold all_stored.
    change (_containerSize ?x) with (get_store x E_containerSize).
    change (_trackSize ?x) with (get_store x E_trackSize).
    change (_thumbSize ?x) with (get_store x E_thumbSize).
    rewrite !run_store. exact Hall. }
  split; [exact Hm|].
  unfold state_in_sync in Hsync. rewrite Hm in Hsync.
  specialize (Hsync r).
  unfold s in Hsync. rewrite run_snoc in Hsync. simpl exec in Hsync.
  destruct (measure_store_frame (run (constructor p rtl) ops) r w h Hw Hh)
    as (size & Hget & Hsw & Hsh).
  rewrite Hget in Hsync. injection Hsync as Hsize.
  unfold s. rewrite run_snoc. simpl exec. rewrite <- Hsize.
  split; assumption.
Qed.

Lemma last_layout_reaches_the_state_witness :
  let ops :=
    [OpMeasure E_containerSize 300 40; OpMeasure E_trackSize 300 4;
     OpMeasure E_thumbSize 20 20; OpGrant] in
  let s :=
    run (constructor defaultProps false)
      (ops ++ [OpMeasure E_containerSize 360 40]) in
  allMeasured (state s) = true /\
  (Fin 360 === width (state_size (state s) E_containerSize)) = true /\
  (Fin 40 === height (state_size (state s) E_containerSize)) = true.
Proof.
  intros ops s.
  apply (last_layout_reaches_the_state defaultProps false ops
           E_containerSize 360 40); reflexivity.
Defined.

(** ** New props *)

(** X17.  The component is not controlled: when the [value] of the new
    props ([0] when it is missing, zero or [NaN]) is [===] to the [value]
    of the current props, [componentWillReceiveProps] changes nothing,
    wherever the user has dragged the slider in between; the value, the
    animated value, the anchor and the log stay, and only the props are
    replaced. *)
Theorem same_value_prop_is_ignored (s : Slider) (p : SliderProps) :
  (value (props s) === or_else (value p) 0) = true ->
  componentWillReceiveProps s p = s /\
  exec s (OpReceiveProps p) = with_props s p /\
  currentValue (exec s (OpReceiveProps p)) = currentValue s /\
  state_value (state (exec s (OpReceiveProps p))) = state_value (state s) /\
  effects (exec s (OpReceiveProps p)) = effects s /\
  listenerCalls (exec s (OpReceiveProps p)) = listenerCalls s.
Proof.
  intros H. simpl. unfold componentWillReceiveProps. rewrite H. simpl.
  repeat split.
Qed.

Lemma same_value_prop_is_ignored_witness :
  let p := mkProps 20 false 0 100 0 (mkSize 40 40) false false false false in
  let s :=
    run (constructor p false)
      [OpMeasure E_containerSize 300 40; OpMeasure E_trackSize 300 4;
       OpMeasure E_thumbSize 20 20; OpFrame 20; OpGrant;
       OpMove (mkGesture 140); OpEnd (mkGesture 140)] in
  eqv (currentValue s) (Fin 70) /\
  (componentWillReceiveProps s p = s /\
   exec s (OpReceiveProps p) = with_props s p /\
   currentValue (exec s (OpReceiveProps p)) = currentValue s /\
   state_value (state (exec s (OpReceiveProps p))) = state_value (state s) /\
   effects (exec s (OpReceiveProps p)) = effects s /\
   listenerCalls (exec s (OpReceiveProps p)) = listenerCalls s).
Proof.
  intros p s. split; [vm_compute; reflexivity|].
  apply (same_value_prop_is_ignored s p). reflexivity.
Defined.


(** ** New props with another value *)


(** ** The animation settings *)

Lemma set_key_same (o : Config) (k : string) (v : ConfigValue) :
  set_key o k v k = Some v.
Proof. unfold set_key. now rewrite String.eqb_refl. Qed.

Lemma set_key_other (o : Config) (k k' : string) (v : ConfigValue) :
  k' <> k -> set_key o k v k' = o k'.
Proof.
  intros H. unfold set_key. apply String.eqb_neq in H. now rewrite H.
Qed.

(** X19.  In the configuration an animated change is started with,
    [toValue] is the target value, whatever the [animationConfig] prop
    says about [toValue]; every other key has the value of the
    [animationConfig] prop when the prop has that key, and the default of
    the animation type otherwise (nothing when there is no default). *)
Theorem animation_config_merge
  (animationType : AnimationType) (animationConfig : option Config)
  (v : number) (k : string) :
  k <> "toValue"%string ->
  animationConfig_of animationType animationConfig v "toValue"%string
  = Some (VNumber v) /\
  animationConfig_of animationType animationConfig v k =
  match animationConfig with
  | Some o =>
      match o k with
      | Some x => Some x
      | None => DEFAULT_ANIMATION_CONFIGS animationType k
      end
  | None => DEFAULT_ANIMATION_CONFIGS animationType k
  end.
Proof.
  intros Hk. unfold animationConfig_of, Object_assign.
  cbn [fold_left assign_one].
  rewrite set_key_same, (set_key_other _ _ _ _ Hk).
  split; [reflexivity|].
  destruct animationConfig as [o|]; cbn [assign_one empty_config].
  - destruct (o k); [reflexivity|].
    now destruct (DEFAULT_ANIMATION_CONFIGS animationType k).
  - now destruct (DEFAULT_ANIMATION_CONFIGS animationType k).
Qed.

Lemma animation_config_merge_witness :
  let user :=
    set_key (set_key empty_config "duration"%string (VNumber 400))
      "toValue"%string (VNumber 9) in
  (animationConfig_of timing (Some user) 1 "toValue"%string = Some (VNumber 1) /\
   animationConfig_of timing (Some user) 1 "duration"%string =
   match Some user with
   | Some o =>
       match o "duration"%string with
       | Some x => Some x
       | None => DEFAULT_ANIMATION_CONFIGS timing "duration"%string
       end
   | None => DEFAULT_ANIMATION_CONFIGS timing "duration"%string
   end) /\
  animationConfig_of timing (Some user) 1 "duration"%string = Some (VNumber 400) /\
  animationConfig_of timing (Some user) 1 "delay"%string = Some (VNumber 0) /\
  animationConfig_of spring None 1 "friction"%string = Some (VNumber 7).
Proof.
  intros user. split.
  - apply (animation_config_merge timing (Some user) 1 "duration"%string).
    discriminate.
  - repeat split.
Defined.

(** ** A disabled slider, and layouts in any order *)

Lemma moves_disabled (gs : list PanResponderGestureState) (s : Slider) :
  disabled (props s) = true -> moves s gs = s.
Proof.
  intros Hd. induction gs as [|g gs IH]; simpl.
  - reflexivity.
  - unfold moves in *. simpl. unfold _handlePanResponderMove at 2.
    rewrite Hd. exact IH.
Qed.

(** X20.  On a disabled slider a whole gesture (grant, moves, release)
    still takes the anchor and still calls [onSlidingStart], but it writes
    no value and calls neither [onValueChange] nor [onSlidingComplete]:
    the start of the sliding is reported and its end is not. *)
Theorem disabled_gesture_starts_but_never_completes
  (s : Slider) (gs : list PanResponderGestureState)
  (g : PanResponderGestureState) :
  disabled (props s) = true ->
  let s' :=
    _handlePanResponderEnd (moves (_handlePanResponderGrant s) gs) g in
  s' = _handlePanResponderGrant s /\
  currentValue s' = currentValue s /\
  state s' = state s /\
  _previousLeft s' = _getThumbLeft s (currentValue s) /\
  effects s' =
    effects s ++
    (if has_onSlidingStart (props s)
     then [Callback onSlidingStart (currentValue s)] else []).
Proof.
  intros Hd s'.
  destruct (grant_frame s) as (G1 & G2 & G3 & G4 & G5 & G6).
  assert (Hdg : disabled (props (_handlePanResponderGrant s)) = true)
    by now rewrite G1.
  assert (E : s' = _handlePanResponderGrant s).
  { unfold s'. rewrite (moves_disabled gs _ Hdg).
    unfold _handlePanResponderEnd. now rewrite Hdg. }
  rewrite E. repeat split; assumption.
Qed.

Lemma disabled_gesture_starts_but_never_completes_witness :
  let s :=
    run (constructor (mkProps 0 true 0 100 10 (mkSize 40 40)
                        true true true false) false)
      [OpMeasure E_containerSize 300 40; OpMeasure E_trackSize 300 4;
       OpMeasure E_thumbSize 20 20; OpFrame 30] in
  let gs := [mkGesture 10; mkGesture 250] in
  let g := mkGesture 56 in
  let s' :=
    _handlePanResponderEnd (moves (_handlePanResponderGrant s) gs) g in
  s' = _handlePanResponderGrant s /\
  currentValue s' = currentValue s /\
  state s' = state s /\
  _previousLeft s' = _getThumbLeft s (currentValue s) /\
  effects s' =
    effects s ++
    (if has_onSlidingStart (props s)
     then [Callback onSlidingStart (currentValue s)] else []).
Proof.
  intros s gs g.
  apply (disabled_gesture_starts_but_never_completes s gs g). reflexivity.
Defined.

(** X21.  Layouts of two different regions can come in either order: the
    state and the three stored sizes are the same afterwards (the calls of
    [setState] on the way may differ). *)
Theorem layouts_of_two_regions_commute
  (s : Slider) (r1 r2 : SizeEnum) (w1 h1 w2 h2 : number) :
  r1 <> r2 ->
  let a := _handleMeasure (_handleMeasure s r1 w1 h1) r2 w2 h2 in
  let b := _handleMeasure (_handleMeasure s r2 w2 h2) r1 w1 h1 in
  state a = state b /\
  (forall r, get_store a r = get_store b r) /\
  props a = props b /\ _previousLeft a = _previousLeft b /\
  currentValue a = currentValue b.
Proof.
  intros Hne a b. unfold a, b, _handleMeasure. clear a b.
  destruct s as [p st pl c t th cv rtl eff lc].
  destruct r1, r2; try congruence;
    destruct c as [c|], t as [t|], th as [th|]; simpl;
    repeat first
      [ match goal with
        | H : (?x === ?y) = _ |- context [?x === ?y] => rewrite H; simpl
        end
      | match goal with
        | |- context [?x === ?y] => destruct (x === y) eqn:?; simpl
        end ];
    (split; [reflexivity|]); (split; [intros []; reflexivity|]);
    repeat split.
Qed.

Lemma layouts_of_two_regions_commute_witness :
  let s :=
    run (constructor defaultProps false) [OpMeasure E_trackSize 300 4] in
  let a :=
    _handleMeasure (_handleMeasure s E_containerSize 300 40)
      E_thumbSize 20 20 in
  let b :=
    _handleMeasure (_handleMeasure s E_thumbSize 20 20)
      E_containerSize 300 40 in
  state a = state b /\
  (forall r, get_store a r = get_store b r) /\
  props a = props b /\ _previousLeft a = _previousLeft b /\
  currentValue a = currentValue b.
Proof.
  intros s.
  apply (layouts_of_two_regions_commute s E_containerSize E_thumbSize
           300 40 20 20).
  discriminate.
Defined.


(** ** Degenerate ranges and early gestures *)

Lemma nonfinite_mul_l (x y : number) :
  nonfinite x = true -> nonfinite (x * y) = true.
Proof.
  destruct x; try discriminate; intros _; destruct y; simpl;
    try reflexivity; unfold inf_times; now destruct (q ?= 0)%Q.
Qed.

Lemma nonfinite_add_l (a x : number) :
  nonfinite x = true -> nonfinite (a + x) = true.
Proof. destruct x; try discriminate; intros _; now destruct a. Qed.

Lemma nonfinite_add_r (x a : number) :
  nonfinite x = true -> nonfinite (x + a) = true.
Proof. destruct x; try discriminate; intros _; now destruct a. Qed.

(** A rect whose left edge is not finite contains no point with finite
    coordinates. *)
Lemma containsPoint_nonfinite_edge (rx ry rh : number) (w x y : Q) :
  nonfinite rx = true ->
  containsPoint (mkRect rx ry (Fin w) rh) (Fin x) (Fin y) = false.
Proof.
  intros H. unfold containsPoint. simpl.
  destruct rx; try discriminate; simpl;
    rewrite ?andb_false_r; reflexivity.
Qed.

(** X22.  A slider whose two bounds are equal cannot be grabbed: with
    finite props, sizes and current value and [minimumValue =
    maximumValue], the thumb offset of the current value is [NaN] or an
    infinity, and so is the left edge of the touch rect; no press with
    finite coordinates passes the hit test. *)
Theorem empty_range_is_never_hit
  (s : Slider) (e : GestureResponderEvent)
  (mn mx cw tw tsw v x y : Q) :
  minimumValue (props s) = Fin mn ->
  maximumValue (props s) = Fin mx ->
  width (containerSize (state s)) = Fin cw ->
  width (thumbSize (state s)) = Fin tw ->
  width (thumbTouchSize (props s)) = Fin tsw ->
  currentValue s = Fin v ->
  locationX e = Fin x -> locationY e = Fin y ->
  (mx == mn)%Q ->
  nonfinite (_getThumbLeft s (currentValue s)) = true /\
  _thumbHitTest s e = false /\
  _handleStartShouldSetPanResponder s e = false.
Proof.
  intros Hmn Hmx Hcw Htw Htsw Hv Hx Hy Heq.
  assert (Ht : nonfinite (_getThumbLeft s (currentValue s)) = true).
  { unfold _getThumbLeft, _getRatio. rewrite Hv, Hmn, Hmx.
    assert (Hz : Fin mx - Fin mn = Fin 0) by (apply round64_zero; lra).
    rewrite Hz. apply nonfinite_mul_l.
    destruct (isRTL s);
      [apply nonfinite_mirror|]; apply nonfinite_div_zero. }
  assert (Hhit : _thumbHitTest s e = false).
  { unfold _thumbHitTest, _getThumbTouchRect, _getCurrentValue.
    rewrite Hx, Hy, Htsw.
    apply containsPoint_nonfinite_edge.
    apply nonfinite_add_r, nonfinite_add_l. exact Ht. }
  split; [exact Ht|]. split; [exact Hhit|].
  exact Hhit.
Qed.

Lemma empty_range_is_never_hit_witness :
  let s :=
    run (constructor (mkProps 5 false 5 5 0 (mkSize 40 40)
                        true true true false) false)
      [OpMeasure E_containerSize 300 40; OpMeasure E_trackSize 300 4;
       OpMeasure E_thumbSize 20 20; OpFrame 5] in
  let e := mkEvent 20 20 in
  nonfinite (_getThumbLeft s (currentValue s)) = true /\
  _thumbHitTest s e = false /\
  _handleStartShouldSetPanResponder s e = false.
Proof.
  intros s e.
  apply (empty_range_is_never_hit s e 5 5 300 20 40 5 20 20); reflexivity.
Defined.

(** A product with a finite zero is zero or [NaN]. *)
Lemma mul_zero_cases (x : number) : x * Fin 0 = Fin 0 \/ x * Fin 0 = NaN.
Proof.
  destruct x; simpl; auto. left. apply round64_zero. ring.
Qed.

(** X23.  Before each of the three regions has had a layout the state
    still has its sizes at 0 by 0, so the track length is [0 - 0]: on an
    enabled fresh instance with finite props, two different bounds and a
    finite current value, a grant followed by a release with [dx = 0]
    writes [NaN] as the value. *)
Theorem tap_before_layout_writes_NaN
  (p : SliderProps) (rtl : bool) (ops : list Op) (mn mx st v : Q) :
  each_region_measured ops = false ->
  let s := run (constructor p rtl) ops in
  disabled (props s) = false ->
  minimumValue (props s) = Fin mn ->
  maximumValue (props s) = Fin mx ->
  step (props s) = Fin st ->
  currentValue s = Fin v ->
  ~ (mx == mn)%Q ->
  currentValue (run s [OpGrant; OpEnd (mkGesture 0)]) = NaN /\
  state_value (state (run s [OpGrant; OpEnd (mkGesture 0)])) = NaN.
Proof.
  intros Hnot s Hd Hmn Hmx Hst Hv Hne.
  assert (Hsync : state_in_sync s).
  { apply run_in_sync; [reflexivity|]. intros []; reflexivity. }
  assert (Hm : allMeasured (state s) = false).
  { unfold s. rewrite run_all_stored by reflexivity.
    unfold all_stored.
    change (_containerSize ?z) with (get_store z E_containerSize).
    change (_trackSize ?z) with (get_store z E_trackSize).
    change (_thumbSize ?z) with (get_store z E_thumbSize).
    rewrite !run_store. exact Hnot. }
  unfold state_in_sync in Hsync. rewrite Hm in Hsync.
  assert (Hc := Hsync E_containerSize). assert (Ht := Hsync E_thumbSize).
  simpl in Hc, Ht.
  simpl run.
  destruct (grant_frame s) as (G1 & G2 & G3 & G4 & G5 & _).
  set (sg := _handlePanResponderGrant s) in *.
  assert (Hlen : width (containerSize (state sg)) -
                 width (thumbSize (state sg)) = Fin 0).
  { rewrite G2, Hc, Ht. reflexivity. }
  assert (Hleft : _previousLeft sg = Fin 0 \/ _previousLeft sg = NaN).
  { rewrite G5. unfold _getThumbLeft. rewrite Hc, Ht.
    change (width (mkSize 0 0) - width (mkSize 0 0)) with (Fin 0).
    apply mul_zero_cases. }
  assert (Hnan : _getValue sg (mkGesture 0) = NaN).
  { rewrite getValue_value_of_ratio. unfold raw_ratio.
    rewrite Hlen. simpl dx.
    assert (Hraw : (_previousLeft sg + Fin 0) / Fin 0 = NaN)
      by (destruct Hleft as [-> | ->]; reflexivity).
    rewrite Hraw. change (Fin 1 - NaN) with NaN.
    destruct (isRTL sg); apply value_of_NaN. }
  unfold _handlePanResponderEnd. rewrite G1, Hd.
  destruct (set_and_fire_frame sg (_getValue sg (mkGesture 0))
              onSlidingComplete) as (_ & _ & _ & _ & _ & E6 & E7 & _).
  rewrite E6, E7, Hnan. split; reflexivity.
Qed.

Lemma tap_before_layout_writes_NaN_witness :
  let p := mkProps 30 false 0 100 0 (mkSize 40 40) true true true false in
  let ops :=
    [OpMeasure E_containerSize 300 40; OpMeasure E_thumbSize 20 20;
     OpFrame 30] in
  let s := run (constructor p false) ops in
  currentValue (run s [OpGrant; OpEnd (mkGesture 0)]) = NaN /\
  state_value (state (run s [OpGrant; OpEnd (mkGesture 0)])) = NaN.
Proof.
  intros p ops s.
  apply (tap_before_layout_writes_NaN p false ops 0 100 0 30);
    reflexivity || discriminate.
Defined.
